(** * HVAC-IR-control: the Mitsubishi frame builder

    A shallow embedding of [python/hvac_ircontrol/mitsubishi.py].

    Python integers are [Z]; the bit operators [|] and [&] are [Z.lor] and
    [Z.land]; [//] and [%] with a positive right operand are [Z.div] and
    [Z.modulo]; [None] is the [None] of [option].  The 18 element list [data]
    that [__send_command] fills in place is a [list Z] updated by index.
    The two effects of [__send_command], reading the clock and handing the
    frame to the transmitter, are threaded through a state and error monad
    over a [world].  The module [Store] runs the same function with [data]
    as a list object on a heap, updated in place and passed by reference. *)

From Stdlib Require Import ZArith String.
From stdpp Require Import base numbers list option.

Local Open Scope Z_scope.

(** ** Enumerations: classes of integer constants *)

Module PowerMode.
Definition PowerOff : Z := 0x00.  (* 0b00000000 *)
Definition PowerOn : Z := 0x20.  (* 0b00100000 *)
End PowerMode.

Module ClimateMode.
Definition Hot : Z := 0x08.  (* 0b00001000 *)
Definition Cold : Z := 0x18.  (* 0b00011000 *)
Definition Dry : Z := 0x10.  (* 0b00010000 *)
Definition Auto : Z := 0x20.  (* 0b00100000 *)

Definition __Hot2 : Z := 0x08.  (* 0b00001000 *)
Definition __Cold2 : Z := 0x18.  (* 0b00011000 *)
Definition __Dry2 : Z := 0x10.  (* 0b00010000 *)
Definition __Auto2 : Z := 0x20.  (* 0b00100000 *)

(** [climate2] falls off its last [if] without a [return] when no mode
    matches: the call then evaluates to [None]. *)
Definition climate2 (climate_mode : Z) : option Z :=
  if climate_mode =? Hot then Some __Hot2
  else if climate_mode =? Cold then Some __Cold2
  else if climate_mode =? Dry then Some __Dry2
  else if climate_mode =? Auto then Some __Auto2
  else None.

(** The closed enumeration: the four codes the class declares. *)
Definition valid (climate_mode : Z) : Prop :=
  climate_mode = Hot \/ climate_mode = Cold \/
  climate_mode = Dry \/ climate_mode = Auto.
End ClimateMode.

Module ISeeMode.
Definition NotAvailable : Z := 0x00.  (* 0b00000000 *)
Definition ISeeOff : Z := 0x00.  (* 0b00000000 *)
Definition ISeeOn : Z := 0x40.  (* 0b01000000 *)

Definition members : list Z := [NotAvailable; ISeeOff; ISeeOn].
End ISeeMode.

Module VanneHorizontalMode.
Definition NotAvailable : Z := 0x00.  (* 0b00000000 *)
Definition LeftEnd : Z := 0x40.  (* 0b01000000 *)
Definition Left : Z := 0x48.  (* 0b01001000 *)
Definition Middle : Z := 0x50.  (* 0b01010000 *)
Definition Right : Z := 0x58.  (* 0b01011000 *)
Definition RightEnd : Z := 0x60.  (* 0b01100000 *)
Definition Swing : Z := 0x68.  (* 0b01101000 *)

Definition members : list Z :=
  [NotAvailable; LeftEnd; Left; Middle; Right; RightEnd; Swing].
End VanneHorizontalMode.

Module FanMode.
Definition Speed1 : Z := 0x01.  (* 0b00000001 *)
Definition Speed2 : Z := 0x02.  (* 0b00000010 *)
Definition Speed3 : Z := 0x03.  (* 0b00000011 *)
Definition Speed4 : Z := 0x04.  (* 0b00000100 *)
Definition Auto : Z := 0x80.  (* 0b10000000 *)
Definition Silent : Z := 0x05.  (* 0b00000101 *)

Definition members : list Z := [Speed1; Speed2; Speed3; Speed4; Auto; Silent].
End FanMode.

Module VanneVerticalMode.
Definition Auto : Z := 0x40.  (* 0b01000000 *)
Definition WvH1 : Z := 0x48.  (* 0b01001000 *)
Definition WvH2 : Z := 0x50.  (* 0b01010000 *)
Definition WvH3 : Z := 0x58.  (* 0b01011000 *)
Definition WvH4 : Z := 0x60.  (* 0b01100000 *)
Definition WvH5 : Z := 0x68.  (* 0b01101000 *)
Definition Swing : Z := 0x78.  (* 0b01111000 *)

Definition members : list Z := [Auto; WvH1; WvH2; WvH3; WvH4; WvH5; Swing].
End VanneVerticalMode.

Module TimeControlMode.
Definition NoTimeControl : Z := 0x00.  (* 0b00000000 *)
Definition ControlStart : Z := 0x00.  (* 0b00000000 *)
Definition ControlEnd : Z := 0x00.  (* 0b00000000 *)
Definition ControlBoth : Z := 0x00.  (* 0b00000000 *)

Definition members : list Z :=
  [NoTimeControl; ControlStart; ControlEnd; ControlBoth].
End TimeControlMode.

Module AreaMode.
Definition NotAvailable : Z := 0x00.  (* 0b00000000 *)
Definition NotSet : Z := 0x00.  (* 0b00000000 *)
Definition Left : Z := 0x00.  (* 0b00000000 *)
Definition Right : Z := 0x00.  (* 0b00000000 *)
Definition Full : Z := 0x00.  (* 0b00000000 *)

Definition members : list Z := [NotAvailable; NotSet; Left; Right; Full].

(** The closed enumeration: the five codes the class declares. *)
Definition valid (area_mode : Z) : Prop :=
  area_mode = NotAvailable \/ area_mode = NotSet \/ area_mode = Left \/
  area_mode = Right \/ area_mode = Full.
End AreaMode.

Module Delay.
Definition HdrMark : Z := 3400.
Definition HdrSpace : Z := 1750.
Definition BitMark : Z := 450.
Definition OneSpace : Z := 1300.
Definition ZeroSpace : Z := 420.
Definition RptMark : Z := 440.
Definition RptSpace : Z := 17100.
End Delay.

Module Index.
Definition Header0 : nat := 0.
Definition Header1 : nat := 1.
Definition Header2 : nat := 2.
Definition Header3 : nat := 3.
Definition Header4 : nat := 4.
Definition Power : nat := 5.
Definition ClimateAndISee : nat := 6.
Definition Temperature : nat := 7.
Definition ClimateAndHorizontalVanne : nat := 8.
Definition FanAndVerticalVanne : nat := 9.
Definition Clock : nat := 10.
Definition EndTime : nat := 11.
Definition StartTime : nat := 12.
Definition TimeControlAndArea : nat := 13.
Definition Unused14 : nat := 14.
Definition Unused15 : nat := 15.
Definition Unused16 : nat := 16.
Definition CRC : nat := 17.
End Index.

Module Constants.
Definition Frequency : Z := 38000.
Definition MinTemp : Z := 16.
Definition MaxTemp : Z := 31.
Definition MaxMask : Z := 0xFF.
Definition NbBytes : Z := 18.
Definition NbPackets : Z := 2.
End Constants.

(** ** The world: clock and transmitter *)

(** The two fields of a [datetime] that the module reads. *)
Record datetime := { hour : Z; minute : Z }.

(** The keyword arguments of the protocol dictionary given to the sender. *)
Record protocol_config := {
  leading_pulse_duration : Z;
  leading_gap_duration : Z;
  one_pulse_duration : Z;
  one_gap_duration : Z;
  zero_pulse_duration : Z;
  zero_gap_duration : Z;
  trailing_pulse_duration : Z;
  trailing_gap_duration : Z
}.

(** An [ir_sender.IrSender] object: what its constructor was given. *)
Record IrSender := {
  sender_gpio_pin : Z;
  sender_protocol : string;
  sender_config : protocol_config;
  sender_log_level : Z
}.

(** One call of [sender.send_data(data, mask, has_header, nb_packets)]. *)
Record send_call := {
  call_sender : IrSender;
  call_data : list Z;
  call_mask : Z;
  call_header : bool;
  call_packets : Z
}.

(** [today] is what [datetime.today()] returns; [sent] lists, oldest
    first, the calls the transmitter has received. *)
Record world := { today : datetime; sent : list send_call }.

Inductive exn := TypeError.

(** State and error monad: an exception keeps the world reached so far. *)
Definition M (A : Type) : Type := world -> world * (exn + A).

Definition ret {A} (a : A) : M A := fun w => (w, inr a).

Definition raise {A} (e : exn) : M A := fun w => (w, inl e).

Definition bind {A B} (k : A -> M B) (m : M A) : M B :=
  fun w =>
    match m w with
    | (w', inr a) => k a w'
    | (w', inl e) => (w', inl e)
    end.

#[global] Instance M_ret : MRet M := @ret.
#[global] Instance M_bind : MBind M := @bind.

Definition datetime_today : M datetime := fun w => (w, inr (today w)).

Definition send_data (sender : IrSender) (data : list Z) (mask : Z)
    (has_header : bool) (nb_packets : Z) : M unit :=
  fun w =>
    ({| today := today w;
        sent := sent w ++ [ {| call_sender := sender; call_data := data;
                               call_mask := mask; call_header := has_header;
                               call_packets := nb_packets |} ] |},
     inr tt).

(** The frames the transmitter has received, oldest first. *)
Definition frames (w : world) : list (list Z) := map call_data (sent w).

(** ** Python operators *)

(** [a | b] where [a] may be [None]: integers have no [|] with [None]. *)
Definition py_or (a : option Z) (b : Z) : M Z :=
  match a with
  | Some x => ret (Z.lor x b)
  | None => raise TypeError
  end.

(** [sum(l)]: left to right from 0. *)
Definition sum (l : list Z) : Z := foldl Z.add 0 l.

(** [l[:-1]]: all but the last element. *)
Definition but_last (l : list Z) : list Z := take (length l - 1)%nat l.

(** ** The Mitsubishi class *)

(** The two attributes [__init__] stores; [log_level] is one of the integer
    levels of [ir_sender.LogLevel], which the class only passes on. *)
Record Mitsubishi := { log_level : Z; gpio_pin : Z }.

Definition __send_command (self : Mitsubishi)
    (climate_mode temperature fan_mode vanne_vertical_mode
     vanne_horizontal_mode isee_mode area_mode : Z)
    (start_time end_time : option datetime) (power_mode : Z) : M unit :=
  let sender :=
    {| sender_gpio_pin := gpio_pin self;
       sender_protocol := "NEC";
       sender_config :=
         {| leading_pulse_duration := Delay.HdrMark;
            leading_gap_duration := Delay.HdrSpace;
            one_pulse_duration := Delay.BitMark;
            one_gap_duration := Delay.OneSpace;
            zero_pulse_duration := Delay.BitMark;
            zero_gap_duration := Delay.ZeroSpace;
            trailing_pulse_duration := Delay.RptMark;
            trailing_gap_duration := Delay.RptSpace |};
       sender_log_level := log_level self |} in
  let data := [0x23; 0xCB; 0x26; 0x01; 0x00; 0x20;
               0x08; 0x06; 0x30; 0x45; 0x67; 0x00;
               0x00; 0x00; 0x00; 0x00; 0x00; 0x1F] in
  let data := <[Index.Power := power_mode]> data in
  let data := <[Index.ClimateAndISee := Z.lor climate_mode isee_mode]> data in
  let data :=
    <[Index.Temperature :=
        Z.max Constants.MinTemp (Z.min Constants.MaxTemp temperature) - 16]>
      data in
  climate_and_vanne ←
    py_or (ClimateMode.climate2 climate_mode) vanne_horizontal_mode;
  let data := <[Index.ClimateAndHorizontalVanne := climate_and_vanne]> data in
  let data :=
    <[Index.FanAndVerticalVanne := Z.lor fan_mode vanne_vertical_mode]> data in
  now ← datetime_today;
  let data := <[Index.Clock := hour now * (minute now / 10)]> data in
  let data :=
    <[Index.EndTime :=
        match end_time with
        | None => 0
        | Some t => hour t * (minute t / 10)
        end]> data in
  let data :=
    <[Index.StartTime :=
        match start_time with
        | None => 0
        | Some t => hour t * (minute t / 10)
        end]> data in
  let time_control :=
    match end_time, start_time with
    | Some _, Some _ => TimeControlMode.ControlBoth
    | Some _, None => TimeControlMode.ControlEnd
    | None, Some _ => TimeControlMode.ControlStart
    | None, None => TimeControlMode.NoTimeControl
    end in
  let data :=
    <[Index.TimeControlAndArea := Z.lor time_control area_mode]> data in
  let data :=
    <[Index.CRC := sum (but_last data) mod (Constants.MaxMask + 1)]> data in
  send_data sender data Constants.MaxMask true Constants.NbPackets.

Definition power_off (self : Mitsubishi) : M unit :=
  __send_command self
    ClimateMode.Auto
    21
    FanMode.Auto
    VanneVerticalMode.Auto
    VanneHorizontalMode.Swing
    ISeeMode.NotAvailable
    AreaMode.NotAvailable
    None
    None
    PowerMode.PowerOff.

(** The keyword defaults are part of the signature: an argument the caller
    leaves out is [None] here and takes the default of the [def] line. *)
Definition send_command (self : Mitsubishi)
    (climate_mode temperature fan_mode vanne_vertical_mode
     vanne_horizontal_mode isee_mode area_mode : option Z)
    (start_time end_time : option datetime) : M unit :=
  __send_command self
    (default ClimateMode.Auto climate_mode)
    (default 21 temperature)
    (default FanMode.Auto fan_mode)
    (default VanneVerticalMode.Auto vanne_vertical_mode)
    (default VanneHorizontalMode.NotAvailable vanne_horizontal_mode)
    (default ISeeMode.NotAvailable isee_mode)
    (default AreaMode.NotAvailable area_mode)
    start_time
    end_time
    PowerMode.PowerOn.

(** ** The frame as a list object *)

(** [data] is a Python list: an object on the heap, which [data[i] = v]
    changes in place and which [send_data] receives by reference.
    [Store] runs [__send_command] over such a heap: the list display
    [[0x23, ...]] allocates a new object, an item assignment updates the
    object its reference names, and the transmitter is handed the
    reference. *)
Module Store.

(** A reference to a list object: its position in the heap. *)
Definition ref : Type := nat.

(** [BadReference] stands for a reference to no object, which no Python
    program can hold. *)
Inductive error := TypeError | IndexError | BadReference.

(** One call of [sender.send_data(data, mask, has_header, nb_packets)],
    with [data] the reference it was given. *)
Record sent_call := {
  sent_sender : IrSender;
  sent_data : ref;
  sent_mask : Z;
  sent_header : bool;
  sent_packets : Z
}.

(** The clock, the list objects, and the calls the transmitter has
    received, oldest first. *)
Record state := {
  clock : datetime;
  heap : list (list Z);
  log : list sent_call
}.

Definition M (A : Type) : Type := state -> state * (error + A).

Definition ret {A} (a : A) : M A := fun s => (s, inr a).

Definition raise {A} (e : error) : M A := fun s => (s, inl e).

Definition bind {A B} (k : A -> M B) (m : M A) : M B :=
  fun s =>
    match m s with
    | (s', inr a) => k a s'
    | (s', inl e) => (s', inl e)
    end.

#[global] Instance M_ret : MRet M := @ret.
#[global] Instance M_bind : MBind M := @bind.

(** A list display: a new object, behind every object there is. *)
Definition new_list (items : list Z) : M ref :=
  fun s =>
    ({| clock := clock s; heap := heap s ++ [items]; log := log s |},
     inr (length (heap s))).

(** Reading the items of a list object. *)
Definition get_list (r : ref) : M (list Z) :=
  fun s =>
    match heap s !! r with
    | Some items => (s, inr items)
    | None => (s, inl BadReference)
    end.

(** [r[i] = v] for an index [i] that is not negative: in place, and an
    [IndexError] out of range. *)
Definition setitem (r : ref) (i : nat) (v : Z) : M unit :=
  fun s =>
    match heap s !! r with
    | Some items =>
        if (i <? length items)%nat
        then ({| clock := clock s;
                 heap := <[r := <[i := v]> items]> (heap s);
                 log := log s |},
              inr tt)
        else (s, inl IndexError)
    | None => (s, inl BadReference)
    end.

Definition datetime_today : M datetime := fun s => (s, inr (clock s)).

Definition py_or (a : option Z) (b : Z) : M Z :=
  match a with
  | Some x => ret (Z.lor x b)
  | None => raise TypeError
  end.

Definition send_data (sender : IrSender) (data : ref) (mask : Z)
    (has_header : bool) (nb_packets : Z) : M unit :=
  fun s =>
    ({| clock := clock s;
        heap := heap s;
        log := log s ++ [ {| sent_sender := sender; sent_data := data;
                             sent_mask := mask; sent_header := has_header;
                             sent_packets := nb_packets |} ] |},
     inr tt).

(** [sum(data[:-1])] reads the items of [data]; the slice is a copy that
    nothing else refers to. *)
Definition __send_command (self : Mitsubishi)
    (climate_mode temperature fan_mode vanne_vertical_mode
     vanne_horizontal_mode isee_mode area_mode : Z)
    (start_time end_time : option datetime) (power_mode : Z) : M unit :=
  let sender :=
    {| sender_gpio_pin := gpio_pin self;
       sender_protocol := "NEC";
       sender_config :=
         {| leading_pulse_duration := Delay.HdrMark;
            leading_gap_duration := Delay.HdrSpace;
            one_pulse_duration := Delay.BitMark;
            one_gap_duration := Delay.OneSpace;
            zero_pulse_duration := Delay.BitMark;
            zero_gap_duration := Delay.ZeroSpace;
            trailing_pulse_duration := Delay.RptMark;
            trailing_gap_duration := Delay.RptSpace |};
       sender_log_level := log_level self |} in
  data ← new_list [0x23; 0xCB; 0x26; 0x01; 0x00; 0x20;
                    0x08; 0x06; 0x30; 0x45; 0x67; 0x00;
                    0x00; 0x00; 0x00; 0x00; 0x00; 0x1F];
  setitem data Index.Power power_mode;;
  setitem data Index.ClimateAndISee (Z.lor climate_mode isee_mode);;
  setitem data Index.Temperature
    (Z.max Constants.MinTemp (Z.min Constants.MaxTemp temperature) - 16);;
  climate_and_vanne ←
    py_or (ClimateMode.climate2 climate_mode) vanne_horizontal_mode;
  setitem data Index.ClimateAndHorizontalVanne climate_and_vanne;;
  setitem data Index.FanAndVerticalVanne
    (Z.lor fan_mode vanne_vertical_mode);;
  now ← datetime_today;
  setitem data Index.Clock (hour now * (minute now / 10));;
  setitem data Index.EndTime
    match end_time with
    | None => 0
    | Some t => hour t * (minute t / 10)
    end;;
  setitem data Index.StartTime
    match start_time with
    | None => 0
    | Some t => hour t * (minute t / 10)
    end;;
  let time_control :=
    match end_time, start_time with
    | Some _, Some _ => TimeControlMode.ControlBoth
    | Some _, None => TimeControlMode.ControlEnd
    | None, Some _ => TimeControlMode.ControlStart
    | None, None => TimeControlMode.NoTimeControl
    end in
  setitem data Index.TimeControlAndArea (Z.lor time_control area_mode);;
  items ← get_list data;
  setitem data Index.CRC (sum (but_last items) mod (Constants.MaxMask + 1));;
  send_data sender data Constants.MaxMask true Constants.NbPackets.

End Store.

(** ** Well-formed inputs *)

(** A value that fits one byte of the frame. *)
Definition is_byte (b : Z) : Prop := 0 <= b < 256.

(** The ranges Python's [datetime] keeps for the two fields. *)
Definition datetime_valid (t : datetime) : Prop :=
  0 <= hour t <= 23 /\ 0 <= minute t <= 59.

(** ** Sample inputs *)

(** A controller on GPIO pin 22. *)
Definition living_room : Mitsubishi := {| log_level := 1; gpio_pin := 22 |}.

(** 14:37, nothing transmitted yet. *)
Definition afternoon : world :=
  {| today := {| hour := 14; minute := 37 |}; sent := [] |}.

(** 07:30 and 22:45, a start and an end time. *)
Definition half_past_seven : datetime := {| hour := 7; minute := 30 |}.
Definition quarter_to_eleven : datetime := {| hour := 22; minute := 45 |}.

(** The frame of climate [Cold], 18 degrees and fan [Speed3] at 14:37. *)
Definition cold_frame : list Z :=
  [0x23; 0xCB; 0x26; 0x01; 0x00; 0x20; 0x18; 0x02; 0x18;
   0x43; 0x2A; 0x00; 0x00; 0x00; 0x00; 0x00; 0x00; 0xD4].

(** 09:05, a time in the first ten minutes of its hour. *)
Definition five_past_nine : datetime := {| hour := 9; minute := 5 |}.

(** 14:37 with two lists on the heap already and nothing transmitted. *)
Definition busy_afternoon : Store.state :=
  {| Store.clock := {| hour := 14; minute := 37 |};
     Store.heap := [[1; 2; 3]; []];
     Store.log := [] |}.

(** * Properties *)

(** ** The climate tables *)

Lemma climate2_Some (climate_mode code : Z) :
  ClimateMode.climate2 climate_mode = Some code ->
  ClimateMode.valid climate_mode /\ code = climate_mode.
Proof.
  unfold ClimateMode.climate2, ClimateMode.valid.
  destruct (Z.eqb_spec climate_mode ClimateMode.Hot) as [-> | _];
    [intros [= <-]; auto |].
  destruct (Z.eqb_spec climate_mode ClimateMode.Cold) as [-> | _];
    [intros [= <-]; auto |].
  destruct (Z.eqb_spec climate_mode ClimateMode.Dry) as [-> | _];
    [intros [= <-]; auto |].
  destruct (Z.eqb_spec climate_mode ClimateMode.Auto) as [-> | _];
    [intros [= <-]; auto | discriminate].
Qed.

Lemma climate2_valid (climate_mode : Z) :
  ClimateMode.valid climate_mode ->
  ClimateMode.climate2 climate_mode = Some climate_mode.
Proof. by intros [-> | [-> | [-> | ->]]]. Qed.

Lemma climate2_None (climate_mode : Z) :
  ClimateMode.climate2 climate_mode = None <->
  ~ ClimateMode.valid climate_mode.
Proof.
  split.
  - intros HNone Hvalid. apply climate2_valid in Hvalid. congruence.
  - intros Hinvalid. destruct (ClimateMode.climate2 climate_mode) eqn:E; [|done].
    apply climate2_Some in E as [? _]. contradiction.
Qed.

(** ** Running [__send_command] *)

(** On a climate mode with a secondary code the call goes through: the
    transmitter receives one more call, whose frame is the template with
    the nine fields overwritten and the checksum in the last place. *)
Lemma __send_command_run (self : Mitsubishi)
    (climate_mode temperature fan_mode vanne_vertical_mode
     vanne_horizontal_mode isee_mode area_mode : Z)
    (start_time end_time : option datetime) (power_mode : Z)
    (code2 : Z) (w : world) :
  ClimateMode.climate2 climate_mode = Some code2 ->
  exists call,
    __send_command self climate_mode temperature fan_mode vanne_vertical_mode
      vanne_horizontal_mode isee_mode area_mode start_time end_time
      power_mode w
    = ({| today := today w; sent := sent w ++ [call] |}, inr tt)
    /\ call_mask call = Constants.MaxMask
    /\ call_header call = true
    /\ call_packets call = Constants.NbPackets
    /\ call_data call =
       let body :=
         [0x23; 0xCB; 0x26; 0x01; 0x00; power_mode;
          Z.lor climate_mode isee_mode;
          Z.max 16 (Z.min 31 temperature) - 16;
          Z.lor code2 vanne_horizontal_mode;
          Z.lor fan_mode vanne_vertical_mode;
          hour (today w) * (minute (today w) / 10);
          from_option (fun t => hour t * (minute t / 10)) 0 end_time;
          from_option (fun t => hour t * (minute t / 10)) 0 start_time;
          area_mode;
          0; 0; 0] in
       body ++ [sum body mod 256].
Proof.
  intros Hcode. unfold __send_command, mbind, M_bind, bind.
  rewrite Hcode. eexists. split; [reflexivity|].
  repeat split.
  destruct start_time, end_time; reflexivity.
Qed.

(** ** The frame and its checksum *)

(** C1: for every valid settings input (the climate mode is one of the
    four of the enumeration; the other settings are any integers, the
    times any optional times) the call hands the transmitter a frame of
    exactly 18 bytes whose last byte, at index 17, is the sum of the
    bytes at indices 0 to 16 modulo 256. *)
Theorem frame_length_and_checksum (self : Mitsubishi)
    (climate_mode temperature fan_mode vanne_vertical_mode
     vanne_horizontal_mode isee_mode area_mode : Z)
    (start_time end_time : option datetime) (power_mode : Z) (w : world) :
  ClimateMode.valid climate_mode ->
  exists call,
    __send_command self climate_mode temperature fan_mode vanne_vertical_mode
      vanne_horizontal_mode isee_mode area_mode start_time end_time
      power_mode w
    = ({| today := today w; sent := sent w ++ [call] |}, inr tt)
    /\ length (call_data call) = 18%nat
    /\ call_data call !! Index.CRC
       = Some (sum (take 17 (call_data call)) mod 256)
    /\ 0 <= sum (take 17 (call_data call)) mod 256 < 256.
Proof.
  intros Hvalid. apply climate2_valid in Hvalid.
  destruct (__send_command_run self climate_mode temperature fan_mode
              vanne_vertical_mode vanne_horizontal_mode isee_mode area_mode
              start_time end_time power_mode _ w Hvalid)
    as (call & Hrun & _ & _ & _ & Hdata).
  exists call. split; [exact Hrun |]. rewrite Hdata.
  split; [reflexivity |]. split; [reflexivity |].
  apply Z.mod_pos_bound. lia.
Qed.

Lemma frame_length_and_checksum_witness :
  ClimateMode.valid ClimateMode.Cold /\
  exists call,
    __send_command living_room ClimateMode.Cold 18 FanMode.Speed3
      VanneVerticalMode.Auto VanneHorizontalMode.NotAvailable
      ISeeMode.NotAvailable AreaMode.NotAvailable None None
      PowerMode.PowerOn afternoon
    = ({| today := today afternoon; sent := sent afternoon ++ [call] |},
       inr tt)
    /\ length (call_data call) = 18%nat
    /\ call_data call !! Index.CRC
       = Some (sum (take 17 (call_data call)) mod 256)
    /\ 0 <= sum (take 17 (call_data call)) mod 256 < 256.
Proof.
  split.
  - right; left; reflexivity.
  - apply frame_length_and_checksum. right; left; reflexivity.
Defined.

(** ** The temperature byte *)

(** C2: for every integer temperature the byte at index 7 is the
    temperature clamped to 16..31, minus 16.  The call goes through
    whatever the temperature: at or below 16 the byte is 0, the byte of
    16; at or above 31 it is 15, the byte of 31. *)
Theorem temperature_byte_saturates (self : Mitsubishi)
    (climate_mode temperature fan_mode vanne_vertical_mode
     vanne_horizontal_mode isee_mode area_mode : Z)
    (start_time end_time : option datetime) (power_mode : Z) (w : world) :
  ClimateMode.valid climate_mode ->
  exists call,
    __send_command self climate_mode temperature fan_mode vanne_vertical_mode
      vanne_horizontal_mode isee_mode area_mode start_time end_time
      power_mode w
    = ({| today := today w; sent := sent w ++ [call] |}, inr tt)
    /\ call_data call !! Index.Temperature
       = Some (Z.max 16 (Z.min 31 temperature) - 16)
    /\ (temperature <= 16 -> call_data call !! Index.Temperature = Some 0)
    /\ (31 <= temperature -> call_data call !! Index.Temperature = Some 15).
Proof.
  intros Hvalid. apply climate2_valid in Hvalid.
  destruct (__send_command_run self climate_mode temperature fan_mode
              vanne_vertical_mode vanne_horizontal_mode isee_mode area_mode
              start_time end_time power_mode _ w Hvalid)
    as (call & Hrun & _ & _ & _ & Hdata).
  exists call. split; [exact Hrun |]. rewrite Hdata.
  split; [reflexivity |].
  split; intros Hrange.
  - change (Some (Z.max 16 (Z.min 31 temperature) - 16) = Some 0).
    f_equal. lia.
  - change (Some (Z.max 16 (Z.min 31 temperature) - 16) = Some 15).
    f_equal. lia.
Qed.

Lemma temperature_byte_saturates_witness :
  ClimateMode.valid ClimateMode.Hot /\
  exists call,
    __send_command living_room ClimateMode.Hot 40 FanMode.Auto
      VanneVerticalMode.Auto VanneHorizontalMode.NotAvailable
      ISeeMode.NotAvailable AreaMode.NotAvailable None None
      PowerMode.PowerOn afternoon
    = ({| today := today afternoon; sent := sent afternoon ++ [call] |},
       inr tt)
    /\ call_data call !! Index.Temperature
       = Some (Z.max 16 (Z.min 31 40) - 16)
    /\ (40 <= 16 -> call_data call !! Index.Temperature = Some 0)
    /\ (31 <= 40 -> call_data call !! Index.Temperature = Some 15).
Proof.
  split.
  - left; reflexivity.
  - apply temperature_byte_saturates. left; reflexivity.
Defined.

(** The two pairs of the spec, evaluated: 10 and 16 give byte 0, 40 and 31
    give byte 15. *)
Example temperature_10_16_40_31 :
  let byte7 (t : Z) : list (option Z) :=
    map (fun data : list Z => data !! Index.Temperature)
      (frames (__send_command living_room ClimateMode.Auto t FanMode.Auto
                 VanneVerticalMode.Auto VanneHorizontalMode.NotAvailable
                 ISeeMode.NotAvailable AreaMode.NotAvailable None None
                 PowerMode.PowerOn afternoon).1) in
  byte7 10 = [Some 0] /\ byte7 16 = [Some 0] /\
  byte7 40 = [Some 15] /\ byte7 31 = [Some 15].
Proof. repeat split; reflexivity. Qed.

(** ** The three time bytes *)

(** C4: the byte at index 10 is the hour of the clock times the tens of
    its minute, hence 0 in the first ten minutes of every hour; the bytes
    at index 11 and 12 are 0 for an absent end or start time and the same
    product for a present one. *)
Theorem time_bytes (self : Mitsubishi)
    (climate_mode temperature fan_mode vanne_vertical_mode
     vanne_horizontal_mode isee_mode area_mode : Z)
    (start_time end_time : option datetime) (power_mode : Z) (w : world) :
  ClimateMode.valid climate_mode ->
  exists call,
    __send_command self climate_mode temperature fan_mode vanne_vertical_mode
      vanne_horizontal_mode isee_mode area_mode start_time end_time
      power_mode w
    = ({| today := today w; sent := sent w ++ [call] |}, inr tt)
    /\ call_data call !! Index.Clock
       = Some (hour (today w) * (minute (today w) / 10))
    /\ (0 <= minute (today w) < 10 -> call_data call !! Index.Clock = Some 0)
    /\ call_data call !! Index.EndTime
       = Some match end_time with
              | None => 0
              | Some t => hour t * (minute t / 10)
              end
    /\ call_data call !! Index.StartTime
       = Some match start_time with
              | None => 0
              | Some t => hour t * (minute t / 10)
              end.
Proof.
  intros Hvalid. apply climate2_valid in Hvalid.
  destruct (__send_command_run self climate_mode temperature fan_mode
              vanne_vertical_mode vanne_horizontal_mode isee_mode area_mode
              start_time end_time power_mode _ w Hvalid)
    as (call & Hrun & _ & _ & _ & Hdata).
  exists call. split; [exact Hrun |]. rewrite Hdata.
  split; [reflexivity |]. split.
  - intros Hminute. cbn [app lookup list_lookup Index.Clock].
    rewrite (Z.div_small (minute (today w)) 10 Hminute). f_equal. lia.
  - split; [by destruct end_time | by destruct start_time].
Qed.

Lemma time_bytes_witness :
  ClimateMode.valid ClimateMode.Dry /\
  exists call,
    __send_command living_room ClimateMode.Dry 21 FanMode.Auto
      VanneVerticalMode.Auto VanneHorizontalMode.NotAvailable
      ISeeMode.NotAvailable AreaMode.NotAvailable
      (Some half_past_seven) None PowerMode.PowerOn afternoon
    = ({| today := today afternoon; sent := sent afternoon ++ [call] |},
       inr tt)
    /\ call_data call !! Index.Clock
       = Some (hour (today afternoon) * (minute (today afternoon) / 10))
    /\ (0 <= minute (today afternoon) < 10 ->
        call_data call !! Index.Clock = Some 0)
    /\ call_data call !! Index.EndTime = Some 0
    /\ call_data call !! Index.StartTime
       = Some (hour half_past_seven * (minute half_past_seven / 10)).
Proof.
  split.
  - right; right; left; reflexivity.
  - apply (time_bytes living_room ClimateMode.Dry 21 FanMode.Auto
             VanneVerticalMode.Auto VanneHorizontalMode.NotAvailable
             ISeeMode.NotAvailable AreaMode.NotAvailable
             (Some half_past_seven) None PowerMode.PowerOn afternoon).
    right; right; left; reflexivity.
Defined.

(** ** The schedule and area byte *)

(** C5: which of the start and end times are present selects one of the
    four schedule codes (both: [ControlBoth], only the end: [ControlEnd],
    only the start: [ControlStart], neither: [NoTimeControl]); the byte at
    index 13 is that code or-ed with the area code, and the two codes
    have no bit in common, so the or keeps every bit of both: it is
    their sum. *)
Theorem schedule_code_or_area (self : Mitsubishi)
    (climate_mode temperature fan_mode vanne_vertical_mode
     vanne_horizontal_mode isee_mode area_mode : Z)
    (start_time end_time : option datetime) (power_mode : Z) (w : world) :
  ClimateMode.valid climate_mode ->
  let time_control :=
    match start_time, end_time with
    | Some _, Some _ => TimeControlMode.ControlBoth
    | None, Some _ => TimeControlMode.ControlEnd
    | Some _, None => TimeControlMode.ControlStart
    | None, None => TimeControlMode.NoTimeControl
    end in
  exists call,
    __send_command self climate_mode temperature fan_mode vanne_vertical_mode
      vanne_horizontal_mode isee_mode area_mode start_time end_time
      power_mode w
    = ({| today := today w; sent := sent w ++ [call] |}, inr tt)
    /\ In time_control TimeControlMode.members
    /\ call_data call !! Index.TimeControlAndArea
       = Some (Z.lor time_control area_mode)
    /\ Z.land time_control area_mode = 0
    /\ Z.lor time_control area_mode = time_control + area_mode.
Proof.
  intros Hvalid time_control. apply climate2_valid in Hvalid.
  destruct (__send_command_run self climate_mode temperature fan_mode
              vanne_vertical_mode vanne_horizontal_mode isee_mode area_mode
              start_time end_time power_mode _ w Hvalid)
    as (call & Hrun & _ & _ & _ & Hdata).
  exists call. split; [exact Hrun |]. rewrite Hdata.
  subst time_control.
  destruct start_time as [start |], end_time as [stop |];
    (split; [simpl; tauto |]); repeat split.
Qed.

Lemma schedule_code_or_area_witness :
  ClimateMode.valid ClimateMode.Auto /\
  exists call,
    __send_command living_room ClimateMode.Auto 21 FanMode.Auto
      VanneVerticalMode.Auto VanneHorizontalMode.NotAvailable
      ISeeMode.NotAvailable AreaMode.Full
      (Some half_past_seven) (Some quarter_to_eleven)
      PowerMode.PowerOn afternoon
    = ({| today := today afternoon; sent := sent afternoon ++ [call] |},
       inr tt)
    /\ In TimeControlMode.ControlBoth TimeControlMode.members
    /\ call_data call !! Index.TimeControlAndArea
       = Some (Z.lor TimeControlMode.ControlBoth AreaMode.Full)
    /\ Z.land TimeControlMode.ControlBoth AreaMode.Full = 0
    /\ Z.lor TimeControlMode.ControlBoth AreaMode.Full
       = TimeControlMode.ControlBoth + AreaMode.Full.
Proof.
  split.
  - right; right; right; reflexivity.
  - apply (schedule_code_or_area living_room ClimateMode.Auto 21 FanMode.Auto
             VanneVerticalMode.Auto VanneHorizontalMode.NotAvailable
             ISeeMode.NotAvailable AreaMode.Full
             (Some half_past_seven) (Some quarter_to_eleven)
             PowerMode.PowerOn afternoon).
    right; right; right; reflexivity.
Defined.

(** C10: every value of [TimeControlMode] and every value of [AreaMode]
    is 0, so for every start time, end time and area mode of the
    enumeration the byte at index 13 is 0. *)
Theorem schedule_and_area_byte_is_zero (self : Mitsubishi)
    (climate_mode temperature fan_mode vanne_vertical_mode
     vanne_horizontal_mode isee_mode area_mode : Z)
    (start_time end_time : option datetime) (power_mode : Z) (w : world) :
  ClimateMode.valid climate_mode ->
  AreaMode.valid area_mode ->
  Forall (fun code => code = 0) TimeControlMode.members
  /\ Forall (fun code => code = 0) AreaMode.members
  /\ exists call,
       __send_command self climate_mode temperature fan_mode
         vanne_vertical_mode vanne_horizontal_mode isee_mode area_mode
         start_time end_time power_mode w
       = ({| today := today w; sent := sent w ++ [call] |}, inr tt)
       /\ call_data call !! Index.TimeControlAndArea = Some 0.
Proof.
  intros Hclimate Harea. apply climate2_valid in Hclimate.
  split; [repeat constructor |]. split; [repeat constructor |].
  destruct (__send_command_run self climate_mode temperature fan_mode
              vanne_vertical_mode vanne_horizontal_mode isee_mode area_mode
              start_time end_time power_mode _ w Hclimate)
    as (call & Hrun & _ & _ & _ & Hdata).
  exists call. split; [exact Hrun |]. rewrite Hdata.
  assert (Hzero : area_mode = 0)
    by (destruct Harea as [-> | [-> | [-> | [-> | ->]]]]; reflexivity).
  rewrite Hzero. reflexivity.
Qed.

Lemma schedule_and_area_byte_is_zero_witness :
  ClimateMode.valid ClimateMode.Cold /\
  AreaMode.valid AreaMode.Right /\
  Forall (fun code => code = 0) TimeControlMode.members
  /\ Forall (fun code => code = 0) AreaMode.members
  /\ exists call,
       __send_command living_room ClimateMode.Cold 25 FanMode.Silent
         VanneVerticalMode.Swing VanneHorizontalMode.Middle ISeeMode.ISeeOn
         AreaMode.Right (Some half_past_seven) None PowerMode.PowerOn
         afternoon
       = ({| today := today afternoon; sent := sent afternoon ++ [call] |},
          inr tt)
       /\ call_data call !! Index.TimeControlAndArea = Some 0.
Proof.
  assert (Hclimate : ClimateMode.valid ClimateMode.Cold)
    by (right; left; reflexivity).
  assert (Harea : AreaMode.valid AreaMode.Right)
    by (right; right; right; left; reflexivity).
  split; [exact Hclimate |]. split; [exact Harea |].
  exact (schedule_and_area_byte_is_zero living_room ClimateMode.Cold 25
           FanMode.Silent VanneVerticalMode.Swing VanneHorizontalMode.Middle
           ISeeMode.ISeeOn AreaMode.Right (Some half_past_seven) None
           PowerMode.PowerOn afternoon Hclimate Harea).
Defined.

(** ** The secondary climate code *)

(** C3, as the code has it: [climate2] gives each of the four modes its
    primary code back, since the four private constants repeat the
    literals of the public ones (their comments announce 0x00, 0x06, 0x02
    and 0x00); the byte at index 8 is thus the primary code or-ed with the
    horizontal vane code. *)
Theorem climate2_returns_primary_code (self : Mitsubishi)
    (climate_mode temperature fan_mode vanne_vertical_mode
     vanne_horizontal_mode isee_mode area_mode : Z)
    (start_time end_time : option datetime) (power_mode : Z) (w : world) :
  ClimateMode.valid climate_mode ->
  ClimateMode.climate2 climate_mode = Some climate_mode
  /\ exists call,
       __send_command self climate_mode temperature fan_mode
         vanne_vertical_mode vanne_horizontal_mode isee_mode area_mode
         start_time end_time power_mode w
       = ({| today := today w; sent := sent w ++ [call] |}, inr tt)
       /\ call_data call !! Index.ClimateAndHorizontalVanne
          = Some (Z.lor climate_mode vanne_horizontal_mode).
Proof.
  intros Hvalid. apply climate2_valid in Hvalid. split; [exact Hvalid |].
  destruct (__send_command_run self climate_mode temperature fan_mode
              vanne_vertical_mode vanne_horizontal_mode isee_mode area_mode
              start_time end_time power_mode _ w Hvalid)
    as (call & Hrun & _ & _ & _ & Hdata).
  exists call. split; [exact Hrun |]. by rewrite Hdata.
Qed.

Lemma climate2_returns_primary_code_witness :
  ClimateMode.valid ClimateMode.Hot /\
  ClimateMode.climate2 ClimateMode.Hot = Some ClimateMode.Hot
  /\ exists call,
       __send_command living_room ClimateMode.Hot 21 FanMode.Auto
         VanneVerticalMode.Auto VanneHorizontalMode.NotAvailable
         ISeeMode.NotAvailable AreaMode.NotAvailable None None
         PowerMode.PowerOn afternoon
       = ({| today := today afternoon; sent := sent afternoon ++ [call] |},
          inr tt)
       /\ call_data call !! Index.ClimateAndHorizontalVanne
          = Some (Z.lor ClimateMode.Hot VanneHorizontalMode.NotAvailable).
Proof.
  split.
  - left; reflexivity.
  - apply climate2_returns_primary_code. left; reflexivity.
Defined.

(** ** Switching off *)

(** C6, as stated, fails: with the documented defaults of [send_command]
    (horizontal vane not applicable) and the power off, the transmitter
    would receive another frame than the one [power_off] sends, which
    carries the horizontal vane code [Swing] at index 8. *)
Lemma power_off_is_not_the_defaults :
  frames (power_off living_room afternoon).1
  <> frames (__send_command living_room ClimateMode.Auto 21 FanMode.Auto
               VanneVerticalMode.Auto VanneHorizontalMode.NotAvailable
               ISeeMode.NotAvailable AreaMode.NotAvailable None None
               PowerMode.PowerOff afternoon).1.
Proof. vm_compute. discriminate. Qed.

(** C6, amended: [power_off] always goes through and sends the frame whose
    power byte, at index 5, is the off code 0x00 and whose other settings
    are climate [Auto], temperature 21, fan [Auto], vertical vane [Auto],
    horizontal vane [Swing], presence sensing and area not available, no
    start and no end time. *)
Theorem power_off_frame (self : Mitsubishi) (w : world) :
  exists call,
    power_off self w
    = ({| today := today w; sent := sent w ++ [call] |}, inr tt)
    /\ call_data call !! Index.Power = Some 0x00
    /\ call_data call =
       let body :=
         [0x23; 0xCB; 0x26; 0x01; 0x00;
          PowerMode.PowerOff;
          Z.lor ClimateMode.Auto ISeeMode.NotAvailable;
          21 - 16;
          Z.lor ClimateMode.__Auto2 VanneHorizontalMode.Swing;
          Z.lor FanMode.Auto VanneVerticalMode.Auto;
          hour (today w) * (minute (today w) / 10);
          0;
          0;
          Z.lor TimeControlMode.NoTimeControl AreaMode.NotAvailable;
          0; 0; 0] in
       body ++ [sum body mod 256].
Proof.
  destruct (__send_command_run self ClimateMode.Auto 21 FanMode.Auto
              VanneVerticalMode.Auto VanneHorizontalMode.Swing
              ISeeMode.NotAvailable AreaMode.NotAvailable None None
              PowerMode.PowerOff ClimateMode.__Auto2 w eq_refl)
    as (call & Hrun & _ & _ & _ & Hdata).
  exists call. split; [exact Hrun |]. rewrite Hdata. by split.
Qed.

(** ** Climate modes outside the enumeration *)

(** C8: on a climate mode that is none of the four codes the call raises
    and the transmitter has received nothing more: the world is the one
    before the call; on each of the four codes the call returns and the
    transmitter has received one frame. *)
Theorem unknown_climate_mode_raises (self : Mitsubishi)
    (climate_mode temperature fan_mode vanne_vertical_mode
     vanne_horizontal_mode isee_mode area_mode : Z)
    (start_time end_time : option datetime) (power_mode : Z) (w : world) :
  (~ ClimateMode.valid climate_mode ->
   __send_command self climate_mode temperature fan_mode vanne_vertical_mode
     vanne_horizontal_mode isee_mode area_mode start_time end_time
     power_mode w
   = (w, inl TypeError))
  /\ (ClimateMode.valid climate_mode ->
      exists call,
        __send_command self climate_mode temperature fan_mode
          vanne_vertical_mode vanne_horizontal_mode isee_mode area_mode
          start_time end_time power_mode w
        = ({| today := today w; sent := sent w ++ [call] |}, inr tt)).
Proof.
  split.
  - intros Hinvalid. apply climate2_None in Hinvalid.
    unfold __send_command, mbind, M_bind, bind. by rewrite Hinvalid.
  - intros Hvalid. apply climate2_valid in Hvalid.
    destruct (__send_command_run self climate_mode temperature fan_mode
                vanne_vertical_mode vanne_horizontal_mode isee_mode area_mode
                start_time end_time power_mode _ w Hvalid)
      as (call & Hrun & _).
    by exists call.
Qed.

Lemma unknown_climate_mode_raises_witness :
  (~ ClimateMode.valid 0x28 /\
   __send_command living_room 0x28 21 FanMode.Auto VanneVerticalMode.Auto
     VanneHorizontalMode.NotAvailable ISeeMode.NotAvailable
     AreaMode.NotAvailable None None PowerMode.PowerOn afternoon
   = (afternoon, inl TypeError))
  /\ (ClimateMode.valid ClimateMode.Dry /\
      exists call,
        __send_command living_room ClimateMode.Dry 21 FanMode.Auto
          VanneVerticalMode.Auto VanneHorizontalMode.NotAvailable
          ISeeMode.NotAvailable AreaMode.NotAvailable None None
          PowerMode.PowerOn afternoon
        = ({| today := today afternoon; sent := sent afternoon ++ [call] |},
           inr tt)).
Proof.
  assert (Hinvalid : ~ ClimateMode.valid 0x28)
    by (intros [H | [H | [H | H]]]; discriminate H).
  assert (Hvalid : ClimateMode.valid ClimateMode.Dry)
    by (right; right; left; reflexivity).
  split; (split; [assumption |]).
  - exact (proj1 (unknown_climate_mode_raises living_room 0x28 21
                    FanMode.Auto VanneVerticalMode.Auto
                    VanneHorizontalMode.NotAvailable ISeeMode.NotAvailable
                    AreaMode.NotAvailable None None PowerMode.PowerOn
                    afternoon) Hinvalid).
  - exact (proj2 (unknown_climate_mode_raises living_room ClimateMode.Dry 21
                    FanMode.Auto VanneVerticalMode.Auto
                    VanneHorizontalMode.NotAvailable ISeeMode.NotAvailable
                    AreaMode.NotAvailable None None PowerMode.PowerOn
                    afternoon) Hvalid).
Defined.

(** ** A fresh frame for every call *)

(** An item assignment to the newest object of the heap changes that
    object and no other. *)
Lemma setitem_newest (now : datetime) (objects : list (list Z))
    (items : list Z) (calls : list Store.sent_call) (i : nat) (v : Z) :
  (i < length items)%nat ->
  Store.setitem (length objects) i v
    {| Store.clock := now; Store.heap := objects ++ [items];
       Store.log := calls |}
  = ({| Store.clock := now; Store.heap := objects ++ [<[i := v]> items];
        Store.log := calls |}, inr tt).
Proof.
  intros Hi. unfold Store.setitem. cbn [Store.heap Store.clock Store.log].
  rewrite list_lookup_middle by reflexivity.
  apply Nat.ltb_lt in Hi. rewrite Hi.
  rewrite insert_app_r_alt by lia. by rewrite Nat.sub_diag.
Qed.

Lemma get_list_newest (now : datetime) (objects : list (list Z))
    (items : list Z) (calls : list Store.sent_call) :
  Store.get_list (length objects)
    {| Store.clock := now; Store.heap := objects ++ [items];
       Store.log := calls |}
  = ({| Store.clock := now; Store.heap := objects ++ [items];
        Store.log := calls |}, inr items).
Proof.
  unfold Store.get_list. cbn [Store.heap].
  by rewrite list_lookup_middle by reflexivity.
Qed.

Ltac store_step :=
  first [ rewrite setitem_newest by (rewrite ?length_insert; vm_compute; lia)
        | rewrite get_list_newest ];
  cbv beta iota.

(** On a climate mode with a secondary code the call allocates one list
    object, leaves in it the frame of the value-level run, and hands its
    reference to the transmitter. *)
Lemma store_run (self : Mitsubishi)
    (climate_mode temperature fan_mode vanne_vertical_mode
     vanne_horizontal_mode isee_mode area_mode : Z)
    (start_time end_time : option datetime) (power_mode : Z)
    (code2 : Z) (s : Store.state) :
  ClimateMode.climate2 climate_mode = Some code2 ->
  exists call,
    Store.__send_command self climate_mode temperature fan_mode
      vanne_vertical_mode vanne_horizontal_mode isee_mode area_mode
      start_time end_time power_mode s
    = ({| Store.clock := Store.clock s;
          Store.heap :=
            Store.heap s ++
            [let body :=
               [0x23; 0xCB; 0x26; 0x01; 0x00; power_mode;
                Z.lor climate_mode isee_mode;
                Z.max 16 (Z.min 31 temperature) - 16;
                Z.lor code2 vanne_horizontal_mode;
                Z.lor fan_mode vanne_vertical_mode;
                hour (Store.clock s) * (minute (Store.clock s) / 10);
                from_option (fun t => hour t * (minute t / 10)) 0 end_time;
                from_option (fun t => hour t * (minute t / 10)) 0 start_time;
                area_mode;
                0; 0; 0] in
             body ++ [sum body mod 256]];
          Store.log := Store.log s ++ [call] |}, inr tt)
    /\ Store.sent_data call = length (Store.heap s).
Proof.
  intros Hcode. destruct s as [now objects calls].
  unfold Store.__send_command, mbind, Store.M_bind, Store.bind,
    Store.new_list, Store.datetime_today, Store.send_data.
  cbn [Store.clock Store.heap Store.log]. rewrite Hcode.
  cbn [Store.py_or Store.ret]. cbv beta iota zeta.
  repeat store_step.
  cbn [Store.clock Store.heap Store.log].
  destruct start_time, end_time; eexists; (split; [reflexivity |]);
    reflexivity.
Qed.

(** On any other climate mode the call raises after three item
    assignments: the new object stays behind, the transmitter has
    received nothing. *)
Lemma store_run_raises (self : Mitsubishi)
    (climate_mode temperature fan_mode vanne_vertical_mode
     vanne_horizontal_mode isee_mode area_mode : Z)
    (start_time end_time : option datetime) (power_mode : Z)
    (s : Store.state) :
  ClimateMode.climate2 climate_mode = None ->
  exists items,
    Store.__send_command self climate_mode temperature fan_mode
      vanne_vertical_mode vanne_horizontal_mode isee_mode area_mode
      start_time end_time power_mode s
    = ({| Store.clock := Store.clock s;
          Store.heap := Store.heap s ++ [items];
          Store.log := Store.log s |}, inl Store.TypeError).
Proof.
  intros Hcode. destruct s as [now objects calls].
  unfold Store.__send_command, mbind, Store.M_bind, Store.bind,
    Store.new_list.
  cbn [Store.clock Store.heap Store.log]. rewrite Hcode.
  cbn [Store.py_or Store.raise]. cbv beta iota zeta.
  repeat store_step. by eexists.
Qed.

(** No call, whatever its settings and however it ends, changes a list
    object that was there before it. *)
Lemma store_objects_kept (self : Mitsubishi)
    (climate_mode temperature fan_mode vanne_vertical_mode
     vanne_horizontal_mode isee_mode area_mode : Z)
    (start_time end_time : option datetime) (power_mode : Z)
    (s : Store.state) (r : Store.ref) (items : list Z) :
  Store.heap s !! r = Some items ->
  Store.heap
    (Store.__send_command self climate_mode temperature fan_mode
       vanne_vertical_mode vanne_horizontal_mode isee_mode area_mode
       start_time end_time power_mode s).1 !! r
  = Some items.
Proof.
  intros Hitems.
  destruct (ClimateMode.climate2 climate_mode) as [code2 |] eqn:Hcode.
  - destruct (store_run self climate_mode temperature fan_mode
                vanne_vertical_mode vanne_horizontal_mode isee_mode
                area_mode start_time end_time power_mode code2 s Hcode)
      as (call & -> & _).
    by apply lookup_app_l_Some.
  - destruct (store_run_raises self climate_mode temperature fan_mode
                vanne_vertical_mode vanne_horizontal_mode isee_mode
                area_mode start_time end_time power_mode s Hcode)
      as (junk & ->).
    by apply lookup_app_l_Some.
Qed.

(** C9: with the settings and the clock fixed, two calls in a row hand
    the transmitter two different list objects that hold the same bytes.
    Each call builds its frame in a list of its own: the second call
    leaves the frame of the first as it was, neither call changes a list
    that was there before, and the bytes are those of the value-level run
    from the clock alone, whatever the heap and the transmitter held. *)
Theorem frame_is_built_afresh (self : Mitsubishi)
    (climate_mode temperature fan_mode vanne_vertical_mode
     vanne_horizontal_mode isee_mode area_mode : Z)
    (start_time end_time : option datetime) (power_mode : Z)
    (s : Store.state) :
  ClimateMode.valid climate_mode ->
  exists (frame : list Z) (s1 s2 : Store.state)
         (call1 call2 : Store.sent_call),
    Store.__send_command self climate_mode temperature fan_mode
      vanne_vertical_mode vanne_horizontal_mode isee_mode area_mode
      start_time end_time power_mode s
    = (s1, inr tt)
    /\ Store.__send_command self climate_mode temperature fan_mode
         vanne_vertical_mode vanne_horizontal_mode isee_mode area_mode
         start_time end_time power_mode s1
       = (s2, inr tt)
    /\ Store.log s1 = Store.log s ++ [call1]
    /\ Store.log s2 = Store.log s ++ [call1; call2]
    /\ Store.sent_data call1 <> Store.sent_data call2
    /\ Store.heap s1 !! Store.sent_data call1 = Some frame
    /\ Store.heap s2 !! Store.sent_data call1 = Some frame
    /\ Store.heap s2 !! Store.sent_data call2 = Some frame
    /\ (forall (r : Store.ref) (items : list Z),
          Store.heap s !! r = Some items -> Store.heap s2 !! r = Some items)
    /\ exists call,
         __send_command self climate_mode temperature fan_mode
           vanne_vertical_mode vanne_horizontal_mode isee_mode area_mode
           start_time end_time power_mode
           {| today := Store.clock s; sent := [] |}
         = ({| today := Store.clock s; sent := [call] |}, inr tt)
         /\ call_data call = frame.
Proof.
  intros Hvalid. apply climate2_valid in Hvalid.
  destruct (store_run self climate_mode temperature fan_mode
              vanne_vertical_mode vanne_horizontal_mode isee_mode area_mode
              start_time end_time power_mode _ s Hvalid)
    as (call1 & Hrun1 & Href1).
  match type of Hrun1 with _ = (?s', _) => set (s1 := s') in * end.
  destruct (store_run self climate_mode temperature fan_mode
              vanne_vertical_mode vanne_horizontal_mode isee_mode area_mode
              start_time end_time power_mode _ s1 Hvalid)
    as (call2 & Hrun2 & Href2).
  match type of Hrun2 with _ = (?s', _) => set (s2 := s') in * end.
  destruct (__send_command_run self climate_mode temperature fan_mode
              vanne_vertical_mode vanne_horizontal_mode isee_mode area_mode
              start_time end_time power_mode _
              {| today := Store.clock s; sent := [] |} Hvalid)
    as (call & Hrun & _ & _ & _ & Hdata).
  exists (call_data call), s1, s2, call1, call2.
  assert (Hlength : length (Store.heap s1) = S (length (Store.heap s)))
    by (subst s1; cbn [Store.heap]; rewrite length_app; simpl; lia).
  rewrite Href1, Href2, Hlength.
  split; [exact Hrun1 |]. split; [exact Hrun2 |].
  split; [reflexivity |].
  split; [subst s2 s1; cbn [Store.log]; by rewrite <- app_assoc |].
  split; [lia |].
  assert (Hfirst : Store.heap s1 !! length (Store.heap s)
                   = Some (call_data call)).
  { subst s1. cbn [Store.heap]. rewrite Hdata.
    by rewrite list_lookup_middle by reflexivity. }
  split; [exact Hfirst |].
  split.
  { subst s2. cbn [Store.heap]. by apply lookup_app_l_Some. }
  split.
  { subst s2. cbn [Store.heap]. rewrite Hdata, <- Hlength.
    by rewrite list_lookup_middle by reflexivity. }
  split.
  { intros r items Hitems. subst s2 s1. cbn [Store.heap].
    by do 2 apply lookup_app_l_Some. }
  exists call. by split.
Qed.

Lemma frame_is_built_afresh_witness :
  ClimateMode.valid ClimateMode.Cold /\
  exists (frame : list Z) (s1 s2 : Store.state)
         (call1 call2 : Store.sent_call),
    Store.__send_command living_room ClimateMode.Cold 18 FanMode.Speed3
      VanneVerticalMode.Auto VanneHorizontalMode.NotAvailable
      ISeeMode.NotAvailable AreaMode.NotAvailable None None
      PowerMode.PowerOn busy_afternoon
    = (s1, inr tt)
    /\ Store.__send_command living_room ClimateMode.Cold 18 FanMode.Speed3
         VanneVerticalMode.Auto VanneHorizontalMode.NotAvailable
         ISeeMode.NotAvailable AreaMode.NotAvailable None None
         PowerMode.PowerOn s1
       = (s2, inr tt)
    /\ Store.log s1 = Store.log busy_afternoon ++ [call1]
    /\ Store.log s2 = Store.log busy_afternoon ++ [call1; call2]
    /\ Store.sent_data call1 <> Store.sent_data call2
    /\ Store.heap s1 !! Store.sent_data call1 = Some frame
    /\ Store.heap s2 !! Store.sent_data call1 = Some frame
    /\ Store.heap s2 !! Store.sent_data call2 = Some frame
    /\ (forall (r : Store.ref) (items : list Z),
          Store.heap busy_afternoon !! r = Some items ->
          Store.heap s2 !! r = Some items)
    /\ exists call,
         __send_command living_room ClimateMode.Cold 18 FanMode.Speed3
           VanneVerticalMode.Auto VanneHorizontalMode.NotAvailable
           ISeeMode.NotAvailable AreaMode.NotAvailable None None
           PowerMode.PowerOn
           {| today := Store.clock busy_afternoon; sent := [] |}
         = ({| today := Store.clock busy_afternoon; sent := [call] |},
            inr tt)
         /\ call_data call = frame.
Proof.
  split.
  - right; left; reflexivity.
  - apply frame_is_built_afresh. right; left; reflexivity.
Defined.

(** The two calls of the sample, run: the transmitter holds references 2
    and 3, both to the sample frame, behind the two lists that were
    there. *)
Example two_calls_two_lists :
  let run :=
    Store.__send_command living_room ClimateMode.Cold 18 FanMode.Speed3
      VanneVerticalMode.Auto VanneHorizontalMode.NotAvailable
      ISeeMode.NotAvailable AreaMode.NotAvailable None None
      PowerMode.PowerOn in
  let s2 := (run (run busy_afternoon).1).1 in
  map Store.sent_data (Store.log s2) = [2%nat; 3%nat]
  /\ Store.heap s2 = [[1; 2; 3]; []; cold_frame; cold_frame].
Proof. split; reflexivity. Qed.

(** The sample frame is the one the module sends for these settings. *)
Example cold_frame_sent :
  frames (send_command living_room (Some ClimateMode.Cold) (Some 18)
            (Some FanMode.Speed3) None None None None None None afternoon).1
  = [cold_frame].
Proof. reflexivity. Qed.

(** * Further properties of the frame *)

(** ** Bytes the call leaves alone *)

(** The five header bytes and the three unused bytes of every frame sent
    are those of the template, whatever the settings. *)
Theorem template_bytes_kept (self : Mitsubishi)
    (climate_mode temperature fan_mode vanne_vertical_mode
     vanne_horizontal_mode isee_mode area_mode : Z)
    (start_time end_time : option datetime) (power_mode : Z) (w : world) :
  ClimateMode.valid climate_mode ->
  exists call,
    __send_command self climate_mode temperature fan_mode vanne_vertical_mode
      vanne_horizontal_mode isee_mode area_mode start_time end_time
      power_mode w
    = ({| today := today w; sent := sent w ++ [call] |}, inr tt)
    /\ take 5 (call_data call) = [0x23; 0xCB; 0x26; 0x01; 0x00]
    /\ take 3 (drop 14 (call_data call)) = [0x00; 0x00; 0x00].
Proof.
  intros Hvalid. apply climate2_valid in Hvalid.
  destruct (__send_command_run self climate_mode temperature fan_mode
              vanne_vertical_mode vanne_horizontal_mode isee_mode area_mode
              start_time end_time power_mode _ w Hvalid)
    as (call & Hrun & _ & _ & _ & Hdata).
  exists call. rewrite Hdata. by repeat split.
Qed.

Lemma template_bytes_kept_witness :
  ClimateMode.valid ClimateMode.Auto /\
  exists call,
    __send_command living_room ClimateMode.Auto 40 300 (-1) 77 1000 12
      (Some quarter_to_eleven) None 999 afternoon
    = ({| today := today afternoon; sent := sent afternoon ++ [call] |},
       inr tt)
    /\ take 5 (call_data call) = [0x23; 0xCB; 0x26; 0x01; 0x00]
    /\ take 3 (drop 14 (call_data call)) = [0x00; 0x00; 0x00].
Proof.
  split.
  - right; right; right; reflexivity.
  - apply template_bytes_kept. right; right; right; reflexivity.
Defined.

(** ** Every entry is a byte *)

Lemma lor_is_byte (a b : Z) : is_byte a -> is_byte b -> is_byte (Z.lor a b).
Proof.
  unfold is_byte. intros Ha Hb. split.
  - apply Z.lor_nonneg. lia.
  - assert (Hshift : Z.shiftr (Z.lor a b) 8 = 0).
    { rewrite Z.shiftr_lor, !Z.shiftr_div_pow2 by lia.
      change (2 ^ 8) with 256. by rewrite !Z.div_small by lia. }
    rewrite Z.shiftr_div_pow2 in Hshift by lia.
    change (2 ^ 8) with 256 in Hshift.
    apply Z.div_small_iff in Hshift; lia.
Qed.

Lemma time_is_byte (t : datetime) :
  datetime_valid t -> 0 <= hour t * (minute t / 10) <= 115.
Proof.
  intros [Hhour Hminute].
  assert (0 <= minute t / 10 <= 5).
  { split; [apply Z.div_pos; lia |].
    apply Z.lt_succ_r. apply Z.div_lt_upper_bound; lia. }
  nia.
Qed.

(** When the mode codes and the power code fit a byte and the clock and
    the times given are in [datetime]'s ranges, every one of the 18
    entries of the frame fits a byte, for every integer temperature. *)
Theorem frame_entries_are_bytes (self : Mitsubishi)
    (climate_mode temperature fan_mode vanne_vertical_mode
     vanne_horizontal_mode isee_mode area_mode : Z)
    (start_time end_time : option datetime) (power_mode : Z) (w : world) :
  ClimateMode.valid climate_mode ->
  is_byte power_mode -> is_byte isee_mode -> is_byte vanne_horizontal_mode ->
  is_byte fan_mode -> is_byte vanne_vertical_mode -> is_byte area_mode ->
  datetime_valid (today w) ->
  from_option datetime_valid True start_time ->
  from_option datetime_valid True end_time ->
  exists call,
    __send_command self climate_mode temperature fan_mode vanne_vertical_mode
      vanne_horizontal_mode isee_mode area_mode start_time end_time
      power_mode w
    = ({| today := today w; sent := sent w ++ [call] |}, inr tt)
    /\ Forall is_byte (call_data call).
Proof.
  intros Hvalid Hpower Hisee Hvh Hfan Hvv Harea Hnow Hstart Hend.
  assert (Hclimate : is_byte climate_mode)
    by (destruct Hvalid as [-> | [-> | [-> | ->]]]; by compute).
  apply climate2_valid in Hvalid.
  destruct (__send_command_run self climate_mode temperature fan_mode
              vanne_vertical_mode vanne_horizontal_mode isee_mode area_mode
              start_time end_time power_mode _ w Hvalid)
    as (call & Hrun & _ & _ & _ & Hdata).
  exists call. split; [exact Hrun |]. rewrite Hdata.
  pose proof (time_is_byte (today w) Hnow) as Hclock.
  assert (Hend' : is_byte
            (from_option (fun t => hour t * (minute t / 10)) 0 end_time)).
  { destruct end_time as [t |]; simpl in *; [| by compute].
    pose proof (time_is_byte t Hend). unfold is_byte. lia. }
  assert (Hstart' : is_byte
            (from_option (fun t => hour t * (minute t / 10)) 0 start_time)).
  { destruct start_time as [t |]; simpl in *; [| by compute].
    pose proof (time_is_byte t Hstart). unfold is_byte. lia. }
  cbn [app]. repeat apply Forall_cons_2; try apply Forall_nil_2;
    try assumption; try (by apply lor_is_byte);
    try (unfold is_byte; lia).
  unfold is_byte. apply Z.mod_pos_bound. lia.
Qed.

Lemma frame_entries_are_bytes_witness :
  ClimateMode.valid ClimateMode.Cold /\
  is_byte PowerMode.PowerOn /\ is_byte ISeeMode.ISeeOn /\
  is_byte VanneHorizontalMode.Swing /\ is_byte FanMode.Auto /\
  is_byte VanneVerticalMode.Swing /\ is_byte AreaMode.Full /\
  datetime_valid (today afternoon) /\
  from_option datetime_valid True (Some half_past_seven) /\
  from_option datetime_valid True None /\
  exists call,
    __send_command living_room ClimateMode.Cold (-5) FanMode.Auto
      VanneVerticalMode.Swing VanneHorizontalMode.Swing ISeeMode.ISeeOn
      AreaMode.Full (Some half_past_seven) None PowerMode.PowerOn afternoon
    = ({| today := today afternoon; sent := sent afternoon ++ [call] |},
       inr tt)
    /\ Forall is_byte (call_data call).
Proof.
  assert (Hclimate : ClimateMode.valid ClimateMode.Cold)
    by (right; left; reflexivity).
  assert (Hbyte : forall b, (0 <=? b) && (b <? 256) = true -> is_byte b)
    by (unfold is_byte; lia).
  assert (Htime : forall t,
             (0 <=? hour t) && (hour t <=? 23)
             && (0 <=? minute t) && (minute t <=? 59) = true ->
             datetime_valid t)
    by (unfold datetime_valid; lia).
  repeat (split; [first [exact Hclimate | by apply Hbyte
                        | by apply Htime | exact I] |]).
  apply frame_entries_are_bytes;
    first [exact Hclimate | by apply Hbyte | by apply Htime | exact I].
Defined.

(** ** Reading the temperature back *)

(** The temperature byte lies in 0..15 for every integer temperature, and
    for a temperature in 16..31 adding 16 to it gives the temperature
    back. *)
Theorem temperature_byte_decodes (self : Mitsubishi)
    (climate_mode temperature fan_mode vanne_vertical_mode
     vanne_horizontal_mode isee_mode area_mode : Z)
    (start_time end_time : option datetime) (power_mode : Z) (w : world) :
  ClimateMode.valid climate_mode ->
  exists call byte,
    __send_command self climate_mode temperature fan_mode vanne_vertical_mode
      vanne_horizontal_mode isee_mode area_mode start_time end_time
      power_mode w
    = ({| today := today w; sent := sent w ++ [call] |}, inr tt)
    /\ call_data call !! Index.Temperature = Some byte
    /\ 0 <= byte <= 15
    /\ (16 <= temperature <= 31 -> byte + 16 = temperature).
Proof.
  intros Hvalid. apply climate2_valid in Hvalid.
  destruct (__send_command_run self climate_mode temperature fan_mode
              vanne_vertical_mode vanne_horizontal_mode isee_mode area_mode
              start_time end_time power_mode _ w Hvalid)
    as (call & Hrun & _ & _ & _ & Hdata).
  exists call, (Z.max 16 (Z.min 31 temperature) - 16).
  split; [exact Hrun |]. rewrite Hdata.
  split; [reflexivity |]. lia.
Qed.

Lemma temperature_byte_decodes_witness :
  ClimateMode.valid ClimateMode.Hot /\
  exists call byte,
    __send_command living_room ClimateMode.Hot 23 FanMode.Auto
      VanneVerticalMode.Auto VanneHorizontalMode.NotAvailable
      ISeeMode.NotAvailable AreaMode.NotAvailable None None
      PowerMode.PowerOn afternoon
    = ({| today := today afternoon; sent := sent afternoon ++ [call] |},
       inr tt)
    /\ call_data call !! Index.Temperature = Some byte
    /\ 0 <= byte <= 15
    /\ (16 <= 23 <= 31 -> byte + 16 = 23).
Proof.
  split.
  - left; reflexivity.
  - apply temperature_byte_decodes. left; reflexivity.
Defined.

(** Two calls that differ only in the temperature send frames that agree
    everywhere but at the temperature byte and the checksum, and send the
    very same frame exactly when the two temperatures clamp to the same
    value. *)
Theorem temperature_moves_only_its_byte (self : Mitsubishi)
    (climate_mode temperature1 temperature2 fan_mode vanne_vertical_mode
     vanne_horizontal_mode isee_mode area_mode : Z)
    (start_time end_time : option datetime) (power_mode : Z) (w : world) :
  ClimateMode.valid climate_mode ->
  exists call1 call2,
    __send_command self climate_mode temperature1 fan_mode
      vanne_vertical_mode vanne_horizontal_mode isee_mode area_mode
      start_time end_time power_mode w
    = ({| today := today w; sent := sent w ++ [call1] |}, inr tt)
    /\ __send_command self climate_mode temperature2 fan_mode
         vanne_vertical_mode vanne_horizontal_mode isee_mode area_mode
         start_time end_time power_mode w
       = ({| today := today w; sent := sent w ++ [call2] |}, inr tt)
    /\ (forall i : nat, i <> Index.Temperature -> i <> Index.CRC ->
          call_data call1 !! i = call_data call2 !! i)
    /\ (call_data call1 = call_data call2 <->
        Z.max 16 (Z.min 31 temperature1) = Z.max 16 (Z.min 31 temperature2)).
Proof.
  intros Hvalid. apply climate2_valid in Hvalid.
  destruct (__send_command_run self climate_mode temperature1 fan_mode
              vanne_vertical_mode vanne_horizontal_mode isee_mode area_mode
              start_time end_time power_mode _ w Hvalid)
    as (call1 & Hrun1 & _ & _ & _ & Hdata1).
  destruct (__send_command_run self climate_mode temperature2 fan_mode
              vanne_vertical_mode vanne_horizontal_mode isee_mode area_mode
              start_time end_time power_mode _ w Hvalid)
    as (call2 & Hrun2 & _ & _ & _ & Hdata2).
  exists call1, call2. split; [exact Hrun1 |]. split; [exact Hrun2 |].
  rewrite Hdata1, Hdata2. split.
  - intros i Htemperature Hcrc.
    do 18 (destruct i as [| i]; [first [reflexivity | done] |]).
    reflexivity.
  - split.
    + intros Hsame.
      apply (f_equal (fun data : list Z => data !! Index.Temperature))
        in Hsame.
      injection Hsame as Hsame. lia.
    + intros Hclamp. cbv zeta. by rewrite Hclamp.
Qed.

Lemma temperature_moves_only_its_byte_witness :
  ClimateMode.valid ClimateMode.Dry /\
  exists call1 call2,
    __send_command living_room ClimateMode.Dry 35 FanMode.Auto
      VanneVerticalMode.Auto VanneHorizontalMode.NotAvailable
      ISeeMode.NotAvailable AreaMode.NotAvailable None None
      PowerMode.PowerOn afternoon
    = ({| today := today afternoon; sent := sent afternoon ++ [call1] |},
       inr tt)
    /\ __send_command living_room ClimateMode.Dry 31 FanMode.Auto
         VanneVerticalMode.Auto VanneHorizontalMode.NotAvailable
         ISeeMode.NotAvailable AreaMode.NotAvailable None None
         PowerMode.PowerOn afternoon
       = ({| today := today afternoon; sent := sent afternoon ++ [call2] |},
          inr tt)
    /\ (forall i : nat, i <> Index.Temperature -> i <> Index.CRC ->
          call_data call1 !! i = call_data call2 !! i)
    /\ (call_data call1 = call_data call2 <->
        Z.max 16 (Z.min 31 35) = Z.max 16 (Z.min 31 31)).
Proof.
  split.
  - right; right; left; reflexivity.
  - apply temperature_moves_only_its_byte. right; right; left; reflexivity.
Defined.

(** ** The power code and the checksum *)

(** Two calls that differ only in the power code send frames that agree
    everywhere but at the power byte and the checksum; the two checksums
    differ, modulo 256, by the difference of the power codes. *)
Theorem power_moves_only_its_byte (self : Mitsubishi)
    (climate_mode temperature fan_mode vanne_vertical_mode
     vanne_horizontal_mode isee_mode area_mode : Z)
    (start_time end_time : option datetime) (power1 power2 : Z) (w : world) :
  ClimateMode.valid climate_mode ->
  exists call1 call2 crc1 crc2,
    __send_command self climate_mode temperature fan_mode
      vanne_vertical_mode vanne_horizontal_mode isee_mode area_mode
      start_time end_time power1 w
    = ({| today := today w; sent := sent w ++ [call1] |}, inr tt)
    /\ __send_command self climate_mode temperature fan_mode
         vanne_vertical_mode vanne_horizontal_mode isee_mode area_mode
         start_time end_time power2 w
       = ({| today := today w; sent := sent w ++ [call2] |}, inr tt)
    /\ (forall i : nat, i <> Index.Power -> i <> Index.CRC ->
          call_data call1 !! i = call_data call2 !! i)
    /\ call_data call1 !! Index.Power = Some power1
    /\ call_data call2 !! Index.Power = Some power2
    /\ call_data call1 !! Index.CRC = Some crc1
    /\ call_data call2 !! Index.CRC = Some crc2
    /\ crc1 = (crc2 + (power1 - power2)) mod 256.
Proof.
  intros Hvalid. apply climate2_valid in Hvalid.
  destruct (__send_command_run self climate_mode temperature fan_mode
              vanne_vertical_mode vanne_horizontal_mode isee_mode area_mode
              start_time end_time power1 _ w Hvalid)
    as (call1 & Hrun1 & _ & _ & _ & Hdata1).
  destruct (__send_command_run self climate_mode temperature fan_mode
              vanne_vertical_mode vanne_horizontal_mode isee_mode area_mode
              start_time end_time power2 _ w Hvalid)
    as (call2 & Hrun2 & _ & _ & _ & Hdata2).
  exists call1, call2. do 2 eexists.
  split; [exact Hrun1 |]. split; [exact Hrun2 |].
  rewrite Hdata1, Hdata2. split.
  - intros i Hpower Hcrc.
    do 18 (destruct i as [| i]; [first [reflexivity | done] |]).
    reflexivity.
  - do 4 (split; [reflexivity |]).
    rewrite Zplus_mod_idemp_l. f_equal.
    unfold sum. cbn [foldl]. ring.
Qed.

Lemma power_moves_only_its_byte_witness :
  ClimateMode.valid ClimateMode.Auto /\
  exists call1 call2 crc1 crc2,
    __send_command living_room ClimateMode.Auto 21 FanMode.Auto
      VanneVerticalMode.Auto VanneHorizontalMode.Swing
      ISeeMode.NotAvailable AreaMode.NotAvailable None None
      PowerMode.PowerOff afternoon
    = ({| today := today afternoon; sent := sent afternoon ++ [call1] |},
       inr tt)
    /\ __send_command living_room ClimateMode.Auto 21 FanMode.Auto
         VanneVerticalMode.Auto VanneHorizontalMode.Swing
         ISeeMode.NotAvailable AreaMode.NotAvailable None None
         PowerMode.PowerOn afternoon
       = ({| today := today afternoon; sent := sent afternoon ++ [call2] |},
          inr tt)
    /\ (forall i : nat, i <> Index.Power -> i <> Index.CRC ->
          call_data call1 !! i = call_data call2 !! i)
    /\ call_data call1 !! Index.Power = Some PowerMode.PowerOff
    /\ call_data call2 !! Index.Power = Some PowerMode.PowerOn
    /\ call_data call1 !! Index.CRC = Some crc1
    /\ call_data call2 !! Index.CRC = Some crc2
    /\ crc1 = (crc2 + (PowerMode.PowerOff - PowerMode.PowerOn)) mod 256.
Proof.
  split.
  - right; right; right; reflexivity.
  - apply power_moves_only_its_byte. right; right; right; reflexivity.
Defined.

(** ** The time bytes *)

(** With the clock in [datetime]'s ranges the clock byte lies in 0..115,
    and it is 0 exactly at hour 0 and in the first ten minutes of every
    hour. *)
Theorem clock_byte_range (self : Mitsubishi)
    (climate_mode temperature fan_mode vanne_vertical_mode
     vanne_horizontal_mode isee_mode area_mode : Z)
    (start_time end_time : option datetime) (power_mode : Z) (w : world) :
  ClimateMode.valid climate_mode ->
  datetime_valid (today w) ->
  exists call byte,
    __send_command self climate_mode temperature fan_mode vanne_vertical_mode
      vanne_horizontal_mode isee_mode area_mode start_time end_time
      power_mode w
    = ({| today := today w; sent := sent w ++ [call] |}, inr tt)
    /\ call_data call !! Index.Clock = Some byte
    /\ 0 <= byte <= 115
    /\ (byte = 0 <-> hour (today w) = 0 \/ minute (today w) < 10).
Proof.
  intros Hvalid Hnow. apply climate2_valid in Hvalid.
  destruct (__send_command_run self climate_mode temperature fan_mode
              vanne_vertical_mode vanne_horizontal_mode isee_mode area_mode
              start_time end_time power_mode _ w Hvalid)
    as (call & Hrun & _ & _ & _ & Hdata).
  exists call, (hour (today w) * (minute (today w) / 10)).
  split; [exact Hrun |]. rewrite Hdata. split; [reflexivity |].
  split; [by apply time_is_byte |].
  destruct Hnow as [Hhour Hminute]. split.
  - intros Hzero. apply Z.mul_eq_0 in Hzero as [Hzero | Hzero]; [by left |].
    right. apply Z.div_small_iff in Hzero; lia.
  - intros [-> | Hearly]; [reflexivity |].
    rewrite Z.div_small by lia. lia.
Qed.

Lemma clock_byte_range_witness :
  ClimateMode.valid ClimateMode.Cold /\
  datetime_valid (today afternoon) /\
  exists call byte,
    __send_command living_room ClimateMode.Cold 21 FanMode.Auto
      VanneVerticalMode.Auto VanneHorizontalMode.NotAvailable
      ISeeMode.NotAvailable AreaMode.NotAvailable None None
      PowerMode.PowerOn afternoon
    = ({| today := today afternoon; sent := sent afternoon ++ [call] |},
       inr tt)
    /\ call_data call !! Index.Clock = Some byte
    /\ 0 <= byte <= 115
    /\ (byte = 0 <->
        hour (today afternoon) = 0 \/ minute (today afternoon) < 10).
Proof.
  assert (Hclimate : ClimateMode.valid ClimateMode.Cold)
    by (right; left; reflexivity).
  assert (Hnow : datetime_valid (today afternoon))
    by (unfold datetime_valid; simpl; lia).
  split; [exact Hclimate |]. split; [exact Hnow |].
  by apply clock_byte_range.
Defined.

(** A start time, or an end time, at hour 0 or in the first ten minutes
    of its hour changes nothing: the call does exactly what it does
    without that time, since the time byte is 0 and the four schedule
    codes are one and the same. *)
Theorem early_time_is_no_time (self : Mitsubishi)
    (climate_mode temperature fan_mode vanne_vertical_mode
     vanne_horizontal_mode isee_mode area_mode : Z)
    (start_time end_time : option datetime) (power_mode : Z) (w : world)
    (t : datetime) :
  hour t = 0 \/ 0 <= minute t < 10 ->
  __send_command self climate_mode temperature fan_mode vanne_vertical_mode
    vanne_horizontal_mode isee_mode area_mode (Some t) end_time power_mode w
  = __send_command self climate_mode temperature fan_mode vanne_vertical_mode
      vanne_horizontal_mode isee_mode area_mode None end_time power_mode w
  /\ __send_command self climate_mode temperature fan_mode
       vanne_vertical_mode vanne_horizontal_mode isee_mode area_mode
       start_time (Some t) power_mode w
     = __send_command self climate_mode temperature fan_mode
         vanne_vertical_mode vanne_horizontal_mode isee_mode area_mode
         start_time None power_mode w.
Proof.
  intros Hearly.
  assert (Hzero : hour t * (minute t / 10) = 0).
  { destruct Hearly as [-> | Hminute]; [reflexivity |].
    rewrite Z.div_small by lia. lia. }
  unfold __send_command, mbind, M_bind, bind.
  destruct (ClimateMode.climate2 climate_mode) as [code2 |];
    [| by split].
  cbv beta iota zeta. rewrite Hzero.
  split; [by destruct end_time | by destruct start_time].
Qed.

Lemma early_time_is_no_time_witness :
  (hour five_past_nine = 0 \/ 0 <= minute five_past_nine < 10) /\
  __send_command living_room ClimateMode.Hot 21 FanMode.Auto
    VanneVerticalMode.Auto VanneHorizontalMode.NotAvailable
    ISeeMode.NotAvailable AreaMode.NotAvailable
    (Some five_past_nine) (Some quarter_to_eleven) PowerMode.PowerOn afternoon
  = __send_command living_room ClimateMode.Hot 21 FanMode.Auto
      VanneVerticalMode.Auto VanneHorizontalMode.NotAvailable
      ISeeMode.NotAvailable AreaMode.NotAvailable
      None (Some quarter_to_eleven) PowerMode.PowerOn afternoon
  /\ __send_command living_room ClimateMode.Hot 21 FanMode.Auto
       VanneVerticalMode.Auto VanneHorizontalMode.NotAvailable
       ISeeMode.NotAvailable AreaMode.NotAvailable
       (Some half_past_seven) (Some five_past_nine) PowerMode.PowerOn
       afternoon
     = __send_command living_room ClimateMode.Hot 21 FanMode.Auto
         VanneVerticalMode.Auto VanneHorizontalMode.NotAvailable
         ISeeMode.NotAvailable AreaMode.NotAvailable
         (Some half_past_seven) None PowerMode.PowerOn afternoon.
Proof.
  assert (Hearly : hour five_past_nine = 0 \/ 0 <= minute five_past_nine < 10)
    by (right; simpl; lia).
  split; [exact Hearly |].
  exact (early_time_is_no_time living_room ClimateMode.Hot 21 FanMode.Auto
           VanneVerticalMode.Auto VanneHorizontalMode.NotAvailable
           ISeeMode.NotAvailable AreaMode.NotAvailable
           (Some half_past_seven) (Some quarter_to_eleven) PowerMode.PowerOn
           afternoon five_past_nine Hearly).
Defined.

(** ** Reading the modes back *)

(** For modes of the enumerations the byte at index 6 gives both of its
    settings back: its bits 3 to 5 are the climate code, its bit 6 the
    presence sensing code. *)
Theorem climate_and_isee_decode (self : Mitsubishi)
    (climate_mode temperature fan_mode vanne_vertical_mode
     vanne_horizontal_mode isee_mode area_mode : Z)
    (start_time end_time : option datetime) (power_mode : Z) (w : world) :
  ClimateMode.valid climate_mode ->
  In isee_mode ISeeMode.members ->
  exists call byte,
    __send_command self climate_mode temperature fan_mode vanne_vertical_mode
      vanne_horizontal_mode isee_mode area_mode start_time end_time
      power_mode w
    = ({| today := today w; sent := sent w ++ [call] |}, inr tt)
    /\ call_data call !! Index.ClimateAndISee = Some byte
    /\ Z.land byte 0x38 = climate_mode
    /\ Z.land byte 0x40 = isee_mode.
Proof.
  intros Hvalid Hisee. pose proof (climate2_valid _ Hvalid) as Hcode.
  destruct (__send_command_run self climate_mode temperature fan_mode
              vanne_vertical_mode vanne_horizontal_mode isee_mode area_mode
              start_time end_time power_mode _ w Hcode)
    as (call & Hrun & _ & _ & _ & Hdata).
  exists call, (Z.lor climate_mode isee_mode).
  split; [exact Hrun |]. rewrite Hdata. split; [reflexivity |].
  simpl in Hisee.
  destruct Hvalid as [-> | [-> | [-> | ->]]];
    destruct Hisee as [<- | [<- | [<- | []]]]; split; reflexivity.
Qed.

Lemma climate_and_isee_decode_witness :
  ClimateMode.valid ClimateMode.Cold /\
  In ISeeMode.ISeeOn ISeeMode.members /\
  exists call byte,
    __send_command living_room ClimateMode.Cold 21 FanMode.Auto
      VanneVerticalMode.Auto VanneHorizontalMode.NotAvailable
      ISeeMode.ISeeOn AreaMode.NotAvailable None None
      PowerMode.PowerOn afternoon
    = ({| today := today afternoon; sent := sent afternoon ++ [call] |},
       inr tt)
    /\ call_data call !! Index.ClimateAndISee = Some byte
    /\ Z.land byte 0x38 = ClimateMode.Cold
    /\ Z.land byte 0x40 = ISeeMode.ISeeOn.
Proof.
  assert (Hclimate : ClimateMode.valid ClimateMode.Cold)
    by (right; left; reflexivity).
  assert (Hisee : In ISeeMode.ISeeOn ISeeMode.members)
    by (right; right; left; reflexivity).
  split; [exact Hclimate |]. split; [exact Hisee |].
  by apply climate_and_isee_decode.
Defined.

(** For modes of the enumerations the byte at index 9 gives both of its
    settings back: its bits 0 to 2 and 7 are the fan code, its bits 3 to
    6 the vertical vane code. *)
Theorem fan_and_vertical_vane_decode (self : Mitsubishi)
    (climate_mode temperature fan_mode vanne_vertical_mode
     vanne_horizontal_mode isee_mode area_mode : Z)
    (start_time end_time : option datetime) (power_mode : Z) (w : world) :
  ClimateMode.valid climate_mode ->
  In fan_mode FanMode.members ->
  In vanne_vertical_mode VanneVerticalMode.members ->
  exists call byte,
    __send_command self climate_mode temperature fan_mode vanne_vertical_mode
      vanne_horizontal_mode isee_mode area_mode start_time end_time
      power_mode w
    = ({| today := today w; sent := sent w ++ [call] |}, inr tt)
    /\ call_data call !! Index.FanAndVerticalVanne = Some byte
    /\ Z.land byte 0x87 = fan_mode
    /\ Z.land byte 0x78 = vanne_vertical_mode.
Proof.
  intros Hvalid Hfan Hvane. apply climate2_valid in Hvalid.
  destruct (__send_command_run self climate_mode temperature fan_mode
              vanne_vertical_mode vanne_horizontal_mode isee_mode area_mode
              start_time end_time power_mode _ w Hvalid)
    as (call & Hrun & _ & _ & _ & Hdata).
  exists call, (Z.lor fan_mode vanne_vertical_mode).
  split; [exact Hrun |]. rewrite Hdata. split; [reflexivity |].
  simpl in Hfan, Hvane.
  destruct Hfan as [<- | [<- | [<- | [<- | [<- | [<- | []]]]]]];
    destruct Hvane as [<- | [<- | [<- | [<- | [<- | [<- | [<- | []]]]]]]];
    split; reflexivity.
Qed.

Lemma fan_and_vertical_vane_decode_witness :
  ClimateMode.valid ClimateMode.Cold /\
  In FanMode.Silent FanMode.members /\
  In VanneVerticalMode.WvH3 VanneVerticalMode.members /\
  exists call byte,
    __send_command living_room ClimateMode.Cold 21 FanMode.Silent
      VanneVerticalMode.WvH3 VanneHorizontalMode.NotAvailable
      ISeeMode.NotAvailable AreaMode.NotAvailable None None
      PowerMode.PowerOn afternoon
    = ({| today := today afternoon; sent := sent afternoon ++ [call] |},
       inr tt)
    /\ call_data call !! Index.FanAndVerticalVanne = Some byte
    /\ Z.land byte 0x87 = FanMode.Silent
    /\ Z.land byte 0x78 = VanneVerticalMode.WvH3.
Proof.
  assert (Hclimate : ClimateMode.valid ClimateMode.Cold)
    by (right; left; reflexivity).
  assert (Hfan : In FanMode.Silent FanMode.members)
    by (do 5 right; left; reflexivity).
  assert (Hvane : In VanneVerticalMode.WvH3 VanneVerticalMode.members)
    by (do 3 right; left; reflexivity).
  split; [exact Hclimate |]. split; [exact Hfan |]. split; [exact Hvane |].
  by apply fan_and_vertical_vane_decode.
Defined.

(** The byte at index 8 does not give the horizontal vane back: in each
    of the four climate modes two different horizontal vane codes of the
    enumeration make the call do exactly the same, so send the same
    frame. *)
Theorem horizontal_vane_codes_collide (climate_mode : Z) :
  ClimateMode.valid climate_mode ->
  exists vanne1 vanne2 : Z,
    In vanne1 VanneHorizontalMode.members
    /\ In vanne2 VanneHorizontalMode.members
    /\ vanne1 <> vanne2
    /\ forall (self : Mitsubishi)
         (temperature fan_mode vanne_vertical_mode isee_mode area_mode : Z)
         (start_time end_time : option datetime) (power_mode : Z)
         (w : world),
         __send_command self climate_mode temperature fan_mode
           vanne_vertical_mode vanne1 isee_mode area_mode start_time
           end_time power_mode w
         = __send_command self climate_mode temperature fan_mode
             vanne_vertical_mode vanne2 isee_mode area_mode start_time
             end_time power_mode w.
Proof.
  intros [-> | [-> | [-> | ->]]].
  - exists VanneHorizontalMode.LeftEnd, VanneHorizontalMode.Left.
    repeat split; [simpl; tauto | simpl; tauto | discriminate].
  - exists VanneHorizontalMode.LeftEnd, VanneHorizontalMode.Left.
    repeat split; [simpl; tauto | simpl; tauto | discriminate].
  - exists VanneHorizontalMode.LeftEnd, VanneHorizontalMode.Middle.
    repeat split; [simpl; tauto | simpl; tauto | discriminate].
  - exists VanneHorizontalMode.LeftEnd, VanneHorizontalMode.RightEnd.
    repeat split; [simpl; tauto | simpl; tauto | discriminate].
Qed.

Lemma horizontal_vane_codes_collide_witness :
  ClimateMode.valid ClimateMode.Dry /\
  exists vanne1 vanne2 : Z,
    In vanne1 VanneHorizontalMode.members
    /\ In vanne2 VanneHorizontalMode.members
    /\ vanne1 <> vanne2
    /\ forall (self : Mitsubishi)
         (temperature fan_mode vanne_vertical_mode isee_mode area_mode : Z)
         (start_time end_time : option datetime) (power_mode : Z)
         (w : world),
         __send_command self ClimateMode.Dry temperature fan_mode
           vanne_vertical_mode vanne1 isee_mode area_mode start_time
           end_time power_mode w
         = __send_command self ClimateMode.Dry temperature fan_mode
             vanne_vertical_mode vanne2 isee_mode area_mode start_time
             end_time power_mode w.
Proof.
  split.
  - right; right; left; reflexivity.
  - apply horizontal_vane_codes_collide. right; right; left; reflexivity.
Defined.

(** ** The public call *)

(** [send_command] raises exactly when a climate mode is given and is
    none of the four codes, and then hands nothing to the transmitter;
    with the climate mode left out, or one of the four codes, it sends
    one frame, whose power byte is the on code. *)
Theorem send_command_outcome (self : Mitsubishi)
    (climate_mode temperature fan_mode vanne_vertical_mode
     vanne_horizontal_mode isee_mode area_mode : option Z)
    (start_time end_time : option datetime) (w : world) :
  (from_option ClimateMode.valid True climate_mode ->
   exists call,
     send_command self climate_mode temperature fan_mode vanne_vertical_mode
       vanne_horizontal_mode isee_mode area_mode start_time end_time w
     = ({| today := today w; sent := sent w ++ [call] |}, inr tt)
     /\ call_data call !! Index.Power = Some PowerMode.PowerOn)
  /\ (~ from_option ClimateMode.valid True climate_mode ->
      send_command self climate_mode temperature fan_mode
        vanne_vertical_mode vanne_horizontal_mode isee_mode area_mode
        start_time end_time w
      = (w, inl TypeError)).
Proof.
  unfold send_command. split.
  - intros Haccepted.
    assert (Hvalid : ClimateMode.valid (default ClimateMode.Auto climate_mode))
      by (destruct climate_mode; [exact Haccepted | by do 3 right]).
    apply climate2_valid in Hvalid.
    destruct (__send_command_run self _ (default 21 temperature)
                (default FanMode.Auto fan_mode)
                (default VanneVerticalMode.Auto vanne_vertical_mode)
                (default VanneHorizontalMode.NotAvailable
                   vanne_horizontal_mode)
                (default ISeeMode.NotAvailable isee_mode)
                (default AreaMode.NotAvailable area_mode)
                start_time end_time PowerMode.PowerOn _ w Hvalid)
      as (call & Hrun & _ & _ & _ & Hdata).
    exists call. split; [exact Hrun |]. by rewrite Hdata.
  - destruct climate_mode as [code |]; simpl; [| tauto].
    intros Hinvalid. apply climate2_None in Hinvalid.
    unfold __send_command, mbind, M_bind, bind. by rewrite Hinvalid.
Qed.

Lemma send_command_outcome_witness :
  (from_option ClimateMode.valid True None /\
   exists call,
     send_command living_room None None None None None None None None None
       afternoon
     = ({| today := today afternoon; sent := sent afternoon ++ [call] |},
        inr tt)
     /\ call_data call !! Index.Power = Some PowerMode.PowerOn)
  /\ (~ from_option ClimateMode.valid True (Some 0) /\
      send_command living_room (Some 0) None None None None None None None
        None afternoon
      = (afternoon, inl TypeError)).
Proof.
  assert (Hinvalid : ~ from_option ClimateMode.valid True (Some 0))
    by (intros [H | [H | [H | H]]]; discriminate H).
  split; (split; [first [exact I | exact Hinvalid] |]).
  - exact (proj1 (send_command_outcome living_room None None None None None
                    None None None None afternoon) I).
  - exact (proj2 (send_command_outcome living_room (Some 0) None None None
                    None None None None None afternoon) Hinvalid).
Defined.
